(** * The NER microservice (nlp_service/main.py)

    A shallow embedding of the FastAPI application of
    [src/nlp_service/main.py]: the module body that builds the application
    and loads the spaCy pipeline, the two endpoints [read_root] and
    [extract_entities], the request schema [TextRequest], and the part of
    the web framework the endpoints rely on (routing, parsing and
    validation of the body, rendering of a validation error, the default
    handler for uncaught exceptions).

    Python code runs in a small monad [Py] that threads the module globals,
    stops at the first raised exception and records the calls made to the
    external library (loading the pipeline, running it on a text) together
    with the responses sent. *)

From Stdlib Require Import String Ascii ZArith List Bool Lia.
Import ListNotations.

Local Open Scope string_scope.
Local Open Scope list_scope.
Local Open Scope Z_scope.

Set Warnings "-register-all".

(** ** Python values *)

(** A Python [str]. Each character stands for one code point. *)
Definition str := string.

(** [len(s)] *)
Definition len (s : str) : Z := Z.of_nat (String.length s).

(** One bound of a slice brought into [0 .. n], as Python does it: a
    negative bound counts from the end, and a bound outside the string is
    clamped. *)
Definition slice_bound (n i : Z) : Z :=
  if i <? 0 then Z.max (i + n) 0 else Z.min i n.

(** [s[a:b]] *)
Definition py_slice (s : str) (a b : Z) : str :=
  let lo := slice_bound (len s) a in
  let hi := slice_bound (len s) b in
  substring (Z.to_nat lo) (Z.to_nat (hi - lo)) s.

(** A Python [float]: a finite value [m * 2^e], an infinity or a NaN. The
    JSON parser of Python reads [NaN], [Infinity] and [-Infinity], and a
    number too large for a double such as [1e999] is read as an
    infinity. *)
Inductive pyfloat : Type :=
| FFinite (m e : Z)
| FInf (negative : bool)
| FNaN.

Definition is_finite (f : pyfloat) : bool :=
  match f with
  | FFinite _ _ => true
  | _ => false
  end.

(** JSON documents, which are also the dicts, lists, strings and numbers
    the endpoints build. A dict keeps its items in insertion order. *)
Inductive json : Type :=
| JNull
| JBool (b : bool)
| JInt (n : Z)
| JFloat (f : pyfloat)
| JStr (s : str)
| JList (items : list json)
| JDict (items : list (str * json)).

(** [d[k]] on the items of a dict. A key written twice in a JSON object
    keeps its last value, as [json.loads] does. *)
Fixpoint dict_get (items : list (str * json)) (k : str) : option json :=
  match items with
  | [] => None
  | (k', v) :: rest =>
      match dict_get rest k with
      | Some v' => Some v'
      | None => if String.eqb k' k then Some v else None
      end
  end.

Definition json_field (j : json) (k : str) : option json :=
  match j with
  | JDict items => dict_get items k
  | _ => None
  end.

Definition dict_keys (j : json) : list str :=
  match j with
  | JDict items => map fst items
  | _ => []
  end.

(** A raised exception: its class and its message. *)
Inductive exn : Type :=
| Exc (cls : str) (msg : str).

Inductive outcome (A : Type) : Type :=
| Returned (a : A)
| Raised (e : exn).
Arguments Returned {A} a.
Arguments Raised {A} e.

(** ** Python's [json] module *)

(** What the interpreter allows when it reads and writes JSON. They are
    settings of the running interpreter, not of main.py. *)
Record Limits : Type := mkLimits {
  (** [sys.get_int_max_str_digits()]: an integer of more decimal digits is
      not converted from or to text; 0 lifts the limit. *)
  max_str_digits : Z;
  (** How many levels of nesting the parser follows below the outermost
      list or dict before it gives up with [RecursionError]. *)
  parse_deeper : nat;
  (** How many levels of nesting the encoder of a response follows. *)
  encode_nesting : nat
}.

(** [d[k] = v] on the items of a dict: a key already there keeps its place
    and takes the new value. *)
Fixpoint set_item (d : list (str * json)) (k : str) (v : json)
  : list (str * json) :=
  match d with
  | [] => [(k, v)]
  | (k', v') :: rest =>
      if String.eqb k' k then (k', v) :: rest
      else (k', v') :: set_item rest k v
  end.

(** The dict built from the pairs of a JSON object, read left to right. *)
Definition dict_of_items (items : list (str * json)) : list (str * json) :=
  fold_left (fun d kv => set_item d (fst kv) (snd kv)) items [].

(** The Python value of a document: each object has become a dict. *)
Fixpoint loaded (doc : json) : json :=
  match doc with
  | JList items => JList (map loaded items)
  | JDict items =>
      JDict (dict_of_items (map (fun kv => (fst kv, loaded (snd kv))) items))
  | _ => doc
  end.

(** The nesting of lists and dicts in a document. *)
Fixpoint depth (doc : json) : nat :=
  match doc with
  | JList items =>
      S (fold_right (fun x acc => Nat.max (depth x) acc) 0%nat items)
  | JDict items =>
      S (fold_right (fun kv acc => Nat.max (depth (snd kv)) acc) 0%nat items)
  | _ => 0%nat
  end.

(** An integer with more digits than the interpreter converts. *)
Definition int_too_long (limits : Limits) (n : Z) : bool :=
  (0 <? max_str_digits limits) && (10 ^ max_str_digits limits <=? Z.abs n).

Fixpoint holds_long_int (limits : Limits) (doc : json) : bool :=
  match doc with
  | JInt n => int_too_long limits n
  | JList items => existsb (holds_long_int limits) items
  | JDict items => existsb (fun kv => holds_long_int limits (snd kv)) items
  | _ => false
  end.

(** The documents the parser reads to the end. *)
Definition accepted (limits : Limits) (doc : json) : bool :=
  negb (holds_long_int limits doc) &&
  (depth doc <=? S (parse_deeper limits))%nat.

(** [json.loads] on a document that is well-formed JSON: it raises on an
    integer that is too long and on nesting that is too deep. *)
Definition json_loads (limits : Limits) (doc : json) : outcome json :=
  if accepted limits doc then Returned (loaded doc)
  else if holds_long_int limits doc then
    Raised (Exc "ValueError" "Exceeds the limit for integer string conversion")
  else
    Raised (Exc "RecursionError" "maximum recursion depth exceeded").

(** A NaN or an infinity somewhere in a value. *)
Fixpoint holds_nonfinite (j : json) : bool :=
  match j with
  | JFloat f => negb (is_finite f)
  | JList items => existsb holds_nonfinite items
  | JDict items => existsb (fun kv => holds_nonfinite (snd kv)) items
  | _ => false
  end.

(** The values the encoder of a response writes. *)
Definition renderable (limits : Limits) (j : json) : bool :=
  negb (holds_nonfinite j) && (depth j <=? encode_nesting limits)%nat.

(** Encoding the content of a JSON response. The framework does not allow
    NaN or infinities there, and its encoder recurses on nested values. In
    a value that came out of the parser no integer is too long. *)
Definition render (limits : Limits) (j : json) : outcome json :=
  if renderable limits j then Returned j
  else if holds_nonfinite j then
    Raised (Exc "ValueError" "Out of range float values are not JSON compliant")
  else
    Raised (Exc "RecursionError" "maximum recursion depth exceeded").

(** ** The external model (spaCy) *)

(** An entity span of a processed document: the attributes of
    [spacy.tokens.Span] that the service reads. *)
Record Span : Type := mkSpan {
  span_text : str;
  label_ : str;
  start_char : Z;
  end_char : Z
}.

(** A processed document; [ents] is [doc.ents]. *)
Record Doc : Type := mkDoc {
  ents : list Span
}.

(** A loaded pipeline. [lang_call nlp t] is what [nlp(t)] gives back: a
    document, or an exception. The call also works on the pipeline object
    itself: [lang_keeps nlp t] are the strings (the tokens of [t] and
    their forms) that the call enters in the string store of the
    pipeline's vocabulary, where they stay. *)
Record Language : Type := mkLanguage {
  lang_call : str -> outcome Doc;
  lang_keeps : str -> list str
}.



(** ** Module state and the [Py] monad *)

Inductive method : Type := GET | POST | PUT | DELETE.

Definition method_eqb (a b : method) : bool :=
  match a, b with
  | GET, GET | POST, POST | PUT, PUT | DELETE, DELETE => true
  | _, _ => false
  end.

(** The functions registered on the application. *)
Inductive endpoint : Type :=
| Ep_read_root
| Ep_extract_entities.

Record Route : Type := mkRoute {
  route_method : method;
  route_path : str;
  route_endpoint : endpoint
}.

(** The module-level names of main.py that hold data: [app] (absent until
    [FastAPI()] has run, then its route table) and [nlp]. *)
Record Globals : Type := mkGlobals {
  app : option (list Route);
  nlp : option Language
}.

Definition no_globals : Globals := {| app := None; nlp := None |}.

(** What the program does that can be seen from outside. *)
Inductive event : Type :=
| EvLoad (name : str)          (* spacy.load(name) *)
| EvCall (text : str)          (* nlp(text) *)
| EvRespond (status : Z).      (* a response was sent *)

Definition Py (A : Type) : Type :=
  Globals -> outcome A * Globals * list event.

Definition ret {A} (a : A) : Py A := fun g => (Returned a, g, []).

Definition raise {A} (e : exn) : Py A := fun g => (Raised e, g, []).

Definition bind {A B} (c : Py A) (k : A -> Py B) : Py B :=
  fun g =>
    match c g with
    | (Returned a, g1, tr1) =>
        match k a g1 with
        | (r, g2, tr2) => (r, g2, tr1 ++ tr2)
        end
    | (Raised e, g1, tr1) => (Raised e, g1, tr1)
    end.

Declare Scope py_scope.
Delimit Scope py_scope with py.
Notation "x <- c ;; k" := (bind c (fun x => k))
  (at level 61, c at next level, right associativity) : py_scope.
Notation "c ;; k" := (bind c (fun _ => k))
  (at level 61, right associativity) : py_scope.
Local Open Scope py_scope.

Definition emit (e : event) : Py unit := fun g => (Returned tt, g, [e]).

(** Reading a global name; an unbound name raises [NameError]. *)
Definition read_nlp : Py Language :=
  fun g =>
    match nlp g with
    | Some m => (Returned m, g, [])
    | None => (Raised (Exc "NameError" "name 'nlp' is not defined"), g, [])
    end.

Definition read_app : Py (list Route) :=
  fun g =>
    match app g with
    | Some rs => (Returned rs, g, [])
    | None => (Raised (Exc "NameError" "name 'app' is not defined"), g, [])
    end.

(** Binding a global name; only the module body does it. *)
Definition bind_nlp (m : Language) : Py unit :=
  fun g => (Returned tt, {| app := app g; nlp := Some m |}, []).

Definition bind_app (rs : list Route) : Py unit :=
  fun g => (Returned tt, {| app := Some rs; nlp := nlp g |}, []).

(** [@app.get(path)] and [@app.post(path)]: append a route to [app]. *)
Definition add_route (m : method) (path : str) (ep : endpoint) : Py unit :=
  rs <- read_app ;;
  bind_app (rs ++ [mkRoute m path ep]).

(** [nlp(text)]: the call is recorded, then returns or raises as the
    pipeline decides. *)
Definition call_model (m : Language) (text : str) : Py Doc :=
  emit (EvCall text) ;;
  match lang_call m text with
  | Returned d => ret d
  | Raised e => raise e
  end.

(** Accessors of a finished run. *)
Definition result_of {A} (r : outcome A * Globals * list event) : outcome A :=
  fst (fst r).
Definition globals_of {A} (r : outcome A * Globals * list event) : Globals :=
  snd (fst r).
Definition trace_of {A} (r : outcome A * Globals * list event) : list event :=
  snd r.

(** ** main.py: the endpoints *)

(** [def read_root()] *)
Definition read_root : Py json :=
  ret (JDict [("message", JStr "NER microservice is running!")]).

(** [class TextRequest(BaseModel)], with its one field [text: str]. *)
Record TextRequest : Type := mkTextRequest {
  text : str
}.

(** The dict built for one entity by the comprehension of
    [extract_entities]. *)
Definition entity_dict (ent : Span) : json :=
  JDict [("text", JStr (span_text ent));
         ("label", JStr (label_ ent));
         ("start_char", JInt (start_char ent));
         ("end_char", JInt (end_char ent))].

(** [def extract_entities(request: TextRequest)] *)
Definition extract_entities (request : TextRequest) : Py json :=
  model <- read_nlp ;;
  doc <- call_model model (text request) ;;
  let entities := map entity_dict (ents doc) in
  ret (JDict [("entities", JList entities); ("input", JStr (text request))]).

(** ** The web framework, as far as the two routes use it *)

Record Request : Type := mkRequest {
  req_method : method;
  req_path : str;
  req_body : option json        (* [None]: no body, or not JSON *)
}.

Inductive payload : Type :=
| JsonBody (j : json)
| TextBody (s : str).

Record Response : Type := mkResponse {
  status_code : Z;
  content : payload
}.

(** The JSON document of a response, if it has one. *)
Definition json_of (r : Response) : option json :=
  match content r with
  | JsonBody j => Some j
  | TextBody _ => None
  end.

(** One error of the schema layer: its kind, where it is, and the input
    it was found on, which the error carries along. *)
Definition validation_error (kind : str) (loc : list str) (msg : str)
           (input : json) : json :=
  JList [JDict [("type", JStr kind);
                ("loc", JList (map JStr loc));
                ("msg", JStr msg);
                ("input", input)]].

(** The schema layer on the parsed body of [POST /ner]: the body must be a
    dict whose [text] is a string; other keys are ignored. The result is
    the request object, or the detail of the validation error. *)
Definition validate_TextRequest (body : option json) : TextRequest + json :=
  match body with
  | None | Some JNull =>
      inr (validation_error "missing" ["body"] "Field required" JNull)
  | Some (JDict items) =>
      match dict_get items "text" with
      | Some (JStr s) => inl (mkTextRequest s)
      | Some v =>
          inr (validation_error "string_type" ["body"; "text"]
                 "Input should be a valid string" v)
      | None =>
          inr (validation_error "missing" ["body"; "text"]
                 "Field required" (JDict items))
      end
  | Some v =>
      inr (validation_error "model_attributes_type" ["body"]
             "Input should be a valid dictionary or object to extract fields from"
             v)
  end.

(** The server's last resort: an exception that leaves the endpoint
    becomes a plain-text 500. *)
Definition server_error : Response :=
  mkResponse 500 (TextBody "Internal Server Error").

Definition catch_all (c : Py Response) : Py Response :=
  fun g =>
    match c g with
    | (Raised _, g1, tr) => (Returned server_error, g1, tr)
    | r => r
    end.

Definition same_path (path : str) (r : Route) : bool :=
  String.eqb (route_path r) path.

Definition same_method (m : method) (r : Route) : bool :=
  method_eqb (route_method r) m.

(** The answer to a body the parser gave up on. *)
Definition parse_failure : Response :=
  mkResponse 400
    (JsonBody (JDict [("detail", JStr "There was an error parsing the body")])).

(** One set of limits to run the service with: the digit limit a CPython
    interpreter starts with, and room for 900 levels of nesting. *)
Definition example_limits : Limits :=
  {| max_str_digits := 4300; parse_deeper := 900; encode_nesting := 900 |}.

Section Service.

(** The limits of the interpreter that runs the service. *)
Variable limits : Limits.

(** Reading the body of a request as JSON. *)
Definition read_body (body : option json) : outcome (option json) :=
  match body with
  | None => Returned None
  | Some doc =>
      match json_loads limits doc with
      | Returned v => Returned (Some v)
      | Raised e => Raised e
      end
  end.

(** Running the function of a route. The body of [POST /ner] is parsed,
    then validated, and [extract_entities] runs only on a valid one. A body
    the parser gives up on is answered with 400. A validation error is
    rendered into a 422, and an exception while rendering leaves the
    endpoint. Both routes answer 200 when their function returns. *)
Definition run_endpoint (ep : endpoint) (body : option json) : Py Response :=
  match ep with
  | Ep_read_root =>
      j <- read_root ;;
      ret (mkResponse 200 (JsonBody j))
  | Ep_extract_entities =>
      match read_body body with
      | Raised _ => ret parse_failure
      | Returned parsed =>
          match validate_TextRequest parsed with
          | inr detail =>
              match render limits (JDict [("detail", detail)]) with
              | Returned content => ret (mkResponse 422 (JsonBody content))
              | Raised e => raise e
              end
          | inl request =>
              j <- extract_entities request ;;
              ret (mkResponse 200 (JsonBody j))
          end
      end
  end.

(** Routing: the first route with the path and the method; 405 when only
    the path is known, 404 otherwise. *)
Definition dispatch (routes : list Route) (req : Request) : Py Response :=
  match filter (same_path (req_path req)) routes with
  | [] => ret (mkResponse 404 (JsonBody (JDict [("detail", JStr "Not Found")])))
  | r :: rs =>
      match find (same_method (req_method req)) (r :: rs) with
      | Some r' => run_endpoint (route_endpoint r') (req_body req)
      | None =>
          ret (mkResponse 405
                 (JsonBody (JDict [("detail", JStr "Method Not Allowed")])))
      end
  end.

(** One request, from arrival to the response sent. *)
Definition handle (routes : list Route) (req : Request) : Py Response :=
  resp <- catch_all (dispatch routes req) ;;
  emit (EvRespond (status_code resp)) ;;
  ret resp.

(** The requests of a process, one after the other. *)
Fixpoint serve (routes : list Route) (reqs : list Request)
  : Py (list Response) :=
  match reqs with
  | [] => ret []
  | req :: rest =>
      resp <- handle routes req ;;
      resps <- serve routes rest ;;
      ret (resp :: resps)
  end.

(** ** main.py: the module body, and a process running it *)

Section Process.

(** [spacy.load] of the external library: it returns the pipeline of that
    name or raises. *)
Variable spacy_load : str -> outcome Language.

Definition load_model (name : str) : Py Language :=
  emit (EvLoad name) ;;
  match spacy_load name with
  | Returned m => ret m
  | Raised e => raise e
  end.

(** The statements of main.py in their order: [app = FastAPI()],
    [nlp = spacy.load("en_core_web_sm")], then the two decorated
    functions. *)
Definition main_module : Py unit :=
  bind_app [] ;;
  model <- load_model "en_core_web_sm" ;;
  bind_nlp model ;;
  add_route GET "/" Ep_read_root ;;
  add_route POST "/ner" Ep_extract_entities.

(** A process: the server imports the module, takes its [app], and serves
    the requests that arrive. An exception during the import ends the
    process before it listens. *)
Definition process (reqs : list Request) : Py (list Response) :=
  main_module ;;
  routes <- read_app ;;
  serve routes reqs.

End Process.

(** The two routes main.py registers. *)
Definition main_routes : list Route :=
  [mkRoute GET "/" Ep_read_root; mkRoute POST "/ner" Ep_extract_entities].

(** The globals once main.py has been imported with pipeline [m]. *)
Definition ready (m : Language) : Globals :=
  {| app := Some main_routes; nlp := Some m |}.

Definition get_root : Request := mkRequest GET "/" None.

Definition post_ner (body : json) : Request := mkRequest POST "/ner" (Some body).

(** The body [{"text": t}]. *)
Definition text_body (t : str) : json := JDict [("text", JStr t)].

(** ** Properties of requests, responses and traces *)

(** A field of the JSON document of a response. *)
Definition response_field (r : Response) (k : str) : option json :=
  match json_of r with
  | Some j => json_field j k
  | None => None
  end.

(** The [entities] list of a response. *)
Definition response_entities (r : Response) : option (list json) :=
  match response_field r "entities" with
  | Some (JList es) => Some es
  | _ => None
  end.

(** Status 200 and [input] equal to [t]. *)
Definition echoes (t : str) (r : Response) : Prop :=
  status_code r = 200 /\ response_field r "input" = Some (JStr t).

(** The offsets of a returned entity lie in [t] and cut its text out
    of [t]. *)
Definition entity_in_text (t : str) (e : json) : Prop :=
  exists txt s f,
    json_field e "text" = Some (JStr txt) /\
    json_field e "start_char" = Some (JInt s) /\
    json_field e "end_char" = Some (JInt f) /\
    0 <= s /\ s < f /\ f <= len t /\
    py_slice t s f = txt.

Definition entities_in_text (t : str) (r : Response) : Prop :=
  exists es, response_entities r = Some es /\ Forall (entity_in_text t) es.

(** The pair [(start_char, end_char)] of a returned entity. *)
Definition entity_bounds (e : json) : option (Z * Z) :=
  match json_field e "start_char", json_field e "end_char" with
  | Some (JInt s), Some (JInt f) => Some (s, f)
  | _, _ => None
  end.

Definition sorted_by_start (bs : list (Z * Z)) : Prop :=
  forall i j a b, (i < j)%nat ->
    nth_error bs i = Some a -> nth_error bs j = Some b -> fst a <= fst b.

Definition next_starts_after (bs : list (Z * Z)) : Prop :=
  forall i a b,
    nth_error bs i = Some a -> nth_error bs (S i) = Some b -> snd a <= fst b.

Definition entities_ordered (r : Response) : Prop :=
  exists es bs,
    response_entities r = Some es /\
    map entity_bounds es = map Some bs /\
    sorted_by_start bs /\ next_starts_after bs.

(** [e] is the dict of exactly the four fields of span [s]. *)
Definition entity_of_span (s : Span) (e : json) : Prop :=
  dict_keys e = ["text"; "label"; "start_char"; "end_char"] /\
  json_field e "text" = Some (JStr (span_text s)) /\
  json_field e "label" = Some (JStr (label_ s)) /\
  json_field e "start_char" = Some (JInt (start_char s)) /\
  json_field e "end_char" = Some (JInt (end_char s)).

(** The [text] of a body is missing or is not a string. *)
Definition text_missing_or_not_str (body : json) : Prop :=
  forall s, json_field body "text" <> Some (JStr s).


Definition never_loaded (tr : list event) : Prop :=
  forall n, ~ In (EvLoad n) tr.

(** ** The extractor's side of the contract *)

(** Modelled from the spec: the Entity Extractor is the external
    pre-trained model, whose code is not in the repository. The spec's
    Entity invariant, read on a span the extractor returns for [t]:
    [0 <= start_char < end_char <= length(t)], and the span's text is
    [t[start_char:end_char]]. *)
Definition span_in_text (t : str) (s : Span) : bool :=
  (0 <=? start_char s) && (start_char s <? end_char s) &&
  (end_char s <=? len t) &&
  String.eqb (py_slice t (start_char s) (end_char s)) (span_text s).

(** Modelled from the spec: the extractor, which is not in the repository,
    returns its spans in order of discovery, left to right and
    non-overlapping: each span starts no earlier than the one before it
    started, and no earlier than the one before it ended. *)
Fixpoint spans_ordered (l : list Span) : bool :=
  match l with
  | a :: (b :: _) as rest =>
      (start_char a <=? start_char b) && (end_char a <=? start_char b) &&
      spans_ordered rest
  | _ => true
  end.

(** The two contracts on what pipeline [m] answers for [t]; they ask
    nothing when [m] raises. *)
Definition answers_in_text (m : Language) (t : str) : bool :=
  match lang_call m t with
  | Returned d => forallb (span_in_text t) (ents d)
  | Raised _ => true
  end.

Definition answers_ordered (m : Language) (t : str) : bool :=
  match lang_call m t with
  | Returned d => spans_ordered (ents d)
  | Raised _ => true
  end.

(** ** Pipelines to run the service on *)

Definition obama : str := "Barack Obama was born in Hawaii.".

(** The words of a text, split at spaces; [cur] is the word being read. *)
Fixpoint split_words (s : str) (cur : str) : list str :=
  match s with
  | EmptyString =>
      match cur with
      | EmptyString => []
      | _ => [cur]
      end
  | String c rest =>
      if Ascii.eqb c " "%char then
        match cur with
        | EmptyString => split_words rest EmptyString
        | _ => cur :: split_words rest EmptyString
        end
      else split_words rest (String.append cur (String c EmptyString))
  end.

(** A pipeline that knows one sentence and finds nothing elsewhere. Like a
    spaCy pipeline it refuses a text longer than its [max_length], before
    it reads it, and it keeps the words of a text it has read. *)
Definition gazetteer (max_length : Z) : Language :=
  {| lang_call := fun t =>
       if max_length <? len t then
         Raised (Exc "ValueError" "[E088] Text exceeds maximum length")
       else if String.eqb t obama then
         Returned (mkDoc [mkSpan "Barack Obama" "PERSON" 0 12;
                          mkSpan "Hawaii" "GPE" 25 31])
       else Returned (mkDoc []);
     lang_keeps := fun t =>
       if max_length <? len t then [] else split_words t EmptyString |}.

Definition demo_nlp : Language := gazetteer 1000000.

(** The same pipeline with a limit of ten characters. *)
Definition short_nlp : Language := gazetteer 10.

(** An installation that has the model, and one that lacks it. *)
Definition demo_load (name : str) : outcome Language :=
  if String.eqb name "en_core_web_sm" then Returned demo_nlp
  else Raised (Exc "OSError" "[E050] Can't find model").

Definition missing_load (name : str) : outcome Language :=
  Raised (Exc "OSError" "[E050] Can't find model").

(** The responses of the two endpoints when their function returns. *)
Definition root_ok : Response :=
  mkResponse 200 (JsonBody (JDict [("message", JStr "NER microservice is running!")])).

Definition ner_ok (t : str) (d : Doc) : Response :=
  mkResponse 200
    (JsonBody (JDict [("entities", JList (map entity_dict (ents d)));
                      ("input", JStr t)])).

(** What [demo_nlp] answers for [obama]. *)
Definition obama_doc : Doc :=
  mkDoc [mkSpan "Barack Obama" "PERSON" 0 12; mkSpan "Hawaii" "GPE" 25 31].

(** The identity echo read for every string: whatever the pipeline does
    with [t], the response to [{"text": t}] is a 200 that echoes [t]. *)
Definition echoes_always (m : Language) (t : str) : Prop :=
  exists r g tr,
    handle main_routes (post_ner (text_body t)) (ready m) = (Returned r, g, tr) /\
    echoes t r.

(** The offsets of a span, as a pair. *)
Definition span_bounds (s : Span) : Z * Z := (start_char s, end_char s).

(** At most one event before the response: the call of the pipeline. *)
Definition at_most_a_call (tr : list event) : Prop :=
  tr = [] \/ exists t, tr = [EvCall t].

(** [c * n]: the character [c] written [n] times. *)
Definition str_mul (c : ascii) (n : N) : str :=
  N.iter n (String c) EmptyString.

(** A text of 1,000,001 characters, one more than [demo_nlp] accepts. *)
Definition long_text : str := str_mul "a"%char 1000001.

(** ** Reading a trace *)

(** The texts the pipeline was called on, in order. *)
Fixpoint calls_of (tr : list event) : list str :=
  match tr with
  | [] => []
  | EvCall t :: rest => t :: calls_of rest
  | _ :: rest => calls_of rest
  end.

(** The statuses of the responses sent, in order. *)
Fixpoint statuses_of (tr : list event) : list Z :=
  match tr with
  | [] => []
  | EvRespond st :: rest => st :: statuses_of rest
  | _ :: rest => statuses_of rest
  end.

(** The text a request brings to [extract_entities]: the request is a
    [POST] on [/ner], the parser accepts its body, and the body has a
    string under [text]. *)
Definition ner_text (req : Request) : option str :=
  match req_method req, req_body req with
  | POST, Some body =>
      if String.eqb "/ner" (req_path req) && accepted limits body then
        match json_field body "text" with
        | Some (JStr t) => Some t
        | _ => None
        end
      else None
  | _, _ => None
  end.

Fixpoint ner_texts (reqs : list Request) : list str :=
  match reqs with
  | [] => []
  | req :: rest =>
      match ner_text req with
      | Some t => t :: ner_texts rest
      | None => ner_texts rest
      end
  end.

(** ** The pipeline object over a run *)



(** ** Rejected bodies *)


(** The validation error of a body, once parsed, can be rendered; a body
    the schema layer accepts has none. *)
Definition error_renders (body : option json) : bool :=
  match validate_TextRequest (option_map loaded body) with
  | inr detail => renderable limits (JDict [("detail", detail)])
  | inl _ => true
  end.


(** The body [{"text": n}] for an integer of 4301 digits. *)
Definition long_int_body : json := JDict [("text", JInt (10 ^ 4300))].

(** ** Lemmas on parsing *)

Lemma dict_get_absent (d : list (str * json)) (k : str) :
  ~ In k (map fst d) -> dict_get d k = None.
Proof.
  induction d as [|[k' v'] rest IH]; intros Hk; [reflexivity|].
  simpl in Hk. simpl. rewrite IH by (intros Hin; apply Hk; right; exact Hin).
  destruct (String.eqb k' k) eqn:E; [|reflexivity].
  apply String.eqb_eq in E. exfalso. apply Hk. left. exact E.
Qed.

Lemma set_item_keys (d : list (str * json)) (k k' : str) (v : json) :
  In k' (map fst (set_item d k v)) <-> k' = k \/ In k' (map fst d).
Proof.
  induction d as [|[k0 v0] rest IH]; simpl.
  - intuition congruence.
  - destruct (String.eqb k0 k) eqn:E; simpl.
    + apply String.eqb_eq in E. subst. intuition congruence.
    + rewrite IH. intuition congruence.
Qed.

Lemma set_item_NoDup (d : list (str * json)) (k : str) (v : json) :
  NoDup (map fst d) -> NoDup (map fst (set_item d k v)).
Proof.
  induction d as [|[k0 v0] rest IH]; simpl; intros Hd.
  - constructor; [tauto | constructor].
  - inversion Hd as [|? ? Hnotin Hrest]; subst.
    destruct (String.eqb k0 k) eqn:E; simpl.
    + constructor; assumption.
    + constructor; [|apply IH; exact Hrest].
      rewrite set_item_keys. intros [-> | Hin]; [|contradiction].
      rewrite String.eqb_refl in E. discriminate E.
Qed.

Lemma dict_get_set_item (d : list (str * json)) (k k' : str) (v : json) :
  NoDup (map fst d) ->
  dict_get (set_item d k v) k' =
  if String.eqb k k' then Some v else dict_get d k'.
Proof.
  induction d as [|[k0 v0] rest IH]; simpl; intros Hd.
  - reflexivity.
  - inversion Hd as [|? ? Hnotin Hrest]; subst.
    destruct (String.eqb k0 k) eqn:E; simpl.
    + apply String.eqb_eq in E. subst k0.
      destruct (String.eqb k k') eqn:E'.
      * apply String.eqb_eq in E'. subst k'.
        rewrite (dict_get_absent rest k Hnotin). reflexivity.
      * reflexivity.
    + rewrite (IH Hrest).
      destruct (String.eqb k k') eqn:E'; [|reflexivity].
      reflexivity.
Qed.

Lemma fold_set_item (items acc : list (str * json)) (k : str) :
  NoDup (map fst acc) ->
  dict_get (fold_left (fun d kv => set_item d (fst kv) (snd kv)) items acc) k =
  match dict_get items k with
  | Some v => Some v
  | None => dict_get acc k
  end.
Proof.
  revert acc. induction items as [|[k0 v0] rest IH]; intros acc Hacc.
  - reflexivity.
  - simpl. rewrite (IH _ (set_item_NoDup acc k0 v0 Hacc)).
    destruct (dict_get rest k) as [v|]; [reflexivity|].
    rewrite (dict_get_set_item acc k0 k v0 Hacc).
    destruct (String.eqb k0 k); reflexivity.
Qed.

(** Looking a key up in the dict of a JSON object gives the last value
    written for it. *)
Lemma dict_get_dict_of_items (items : list (str * json)) (k : str) :
  dict_get (dict_of_items items) k = dict_get items k.
Proof.
  unfold dict_of_items. rewrite fold_set_item by constructor.
  destruct (dict_get items k); reflexivity.
Qed.

Lemma dict_get_map_values (f : json -> json) (items : list (str * json))
      (k : str) :
  dict_get (map (fun kv => (fst kv, f (snd kv))) items) k =
  option_map f (dict_get items k).
Proof.
  induction items as [|[k0 v0] rest IH]; [reflexivity|].
  simpl. rewrite IH.
  destruct (dict_get rest k); [reflexivity|].
  destruct (String.eqb k0 k); reflexivity.
Qed.

Lemma json_field_loaded (body : json) (k : str) :
  json_field (loaded body) k = option_map loaded (json_field body k).
Proof.
  destruct body; try reflexivity.
  simpl. rewrite dict_get_dict_of_items. apply dict_get_map_values.
Qed.

Lemma loaded_is_str (v : json) (t : str) : loaded v = JStr t <-> v = JStr t.
Proof.
  destruct v; simpl; split; intros H; try discriminate H; exact H.
Qed.

Lemma loaded_text (body : json) (t : str) :
  json_field (loaded body) "text" = Some (JStr t) <->
  json_field body "text" = Some (JStr t).
Proof.
  rewrite json_field_loaded.
  destruct (json_field body "text") as [v|]; simpl; [|tauto].
  split; intros H.
  - assert (Hv : loaded v = JStr t) by congruence.
    apply (proj1 (loaded_is_str v t)) in Hv. rewrite Hv. reflexivity.
  - assert (Hv : v = JStr t) by congruence.
    rewrite Hv. reflexivity.
Qed.

Lemma read_body_accepted (body : json) :
  accepted limits body = true ->
  read_body (Some body) = Returned (Some (loaded body)).
Proof. intros H. unfold read_body, json_loads. rewrite H. reflexivity. Qed.

Lemma read_body_refused (body : json) :
  accepted limits body = false ->
  exists e, read_body (Some body) = Raised e.
Proof.
  intros H. unfold read_body, json_loads. rewrite H.
  destruct (holds_long_int limits body); eexists; reflexivity.
Qed.

Lemma text_body_accepted (t : str) : accepted limits (text_body t) = true.
Proof. reflexivity. Qed.

Lemma long_int_is_refused (items : list (str * json)) (k : str) (n : Z) :
  In (k, JInt n) items ->
  int_too_long limits n = true ->
  accepted limits (JDict items) = false.
Proof.
  intros Hin Hlong. unfold accepted.
  assert (H : holds_long_int limits (JDict items) = true).
  { cbn [holds_long_int]. apply existsb_exists.
    exists (k, JInt n). split; [exact Hin | exact Hlong]. }
  rewrite H. reflexivity.
Qed.

(** ** Lemmas on the framework *)

Lemma dispatch_get_root :
  dispatch main_routes get_root = run_endpoint Ep_read_root None.
Proof. reflexivity. Qed.

Lemma dispatch_post_ner (body : json) :
  dispatch main_routes (post_ner body) =
  run_endpoint Ep_extract_entities (Some body).
Proof. reflexivity. Qed.

Lemma validate_text (body : json) (t : str) :
  json_field body "text" = Some (JStr t) ->
  validate_TextRequest (Some (loaded body)) = inl (mkTextRequest t).
Proof.
  intros H. apply (proj2 (loaded_text body t)) in H.
  destruct (loaded body); simpl in H; try discriminate H.
  simpl. rewrite H. reflexivity.
Qed.

Lemma validate_rejects (body : json) :
  text_missing_or_not_str body ->
  exists detail, validate_TextRequest (Some (loaded body)) = inr detail.
Proof.
  unfold text_missing_or_not_str. intros Hbad.
  assert (Hbad' : forall s, json_field (loaded body) "text" <> Some (JStr s)).
  { intros s Hs. apply (proj1 (loaded_text body s)) in Hs. exact (Hbad s Hs). }
  destruct (loaded body); simpl in *; eauto.
  destruct (dict_get items "text") as [v|]; eauto.
  destruct v; eauto.
  exfalso. apply (Hbad' s). reflexivity.
Qed.

Lemma text_body_field (t : str) :
  json_field (text_body t) "text" = Some (JStr t).
Proof. reflexivity. Qed.

(** [extract_entities] when the pipeline returns, and when it raises. *)
Lemma extract_entities_returned (m : Language) (g : Globals) (t : str) (d : Doc) :
  nlp g = Some m ->
  lang_call m t = Returned d ->
  extract_entities (mkTextRequest t) g =
  (Returned (JDict [("entities", JList (map entity_dict (ents d)));
                    ("input", JStr t)]), g, [EvCall t]).
Proof.
  intros Hg Hcall.
  unfold extract_entities, bind, read_nlp, call_model, emit, bind, ret.
  rewrite Hg. simpl. rewrite Hcall. reflexivity.
Qed.

Lemma extract_entities_raised (m : Language) (g : Globals) (t : str) (e : exn) :
  nlp g = Some m ->
  lang_call m t = Raised e ->
  extract_entities (mkTextRequest t) g = (Raised e, g, [EvCall t]).
Proof.
  intros Hg Hcall.
  unfold extract_entities, bind, read_nlp, call_model, emit, bind, raise.
  rewrite Hg. simpl. rewrite Hcall. reflexivity.
Qed.

(** The ways a [POST /ner] ends. *)
Lemma handle_ner_returned (m : Language) (g : Globals) (body : json) (t : str) (d : Doc) :
  nlp g = Some m ->
  accepted limits body = true ->
  json_field body "text" = Some (JStr t) ->
  lang_call m t = Returned d ->
  handle main_routes (post_ner body) g =
  (Returned (ner_ok t d), g, [EvCall t; EvRespond 200]).
Proof.
  intros Hg Hacc Hbody Hcall.
  unfold handle, catch_all, bind at 1.
  rewrite dispatch_post_ner. unfold run_endpoint.
  rewrite (read_body_accepted body Hacc), (validate_text _ _ Hbody).
  unfold bind at 1.
  rewrite (extract_entities_returned m g t d Hg Hcall).
  reflexivity.
Qed.

Lemma handle_ner_raised (m : Language) (g : Globals) (body : json) (t : str) (e : exn) :
  nlp g = Some m ->
  accepted limits body = true ->
  json_field body "text" = Some (JStr t) ->
  lang_call m t = Raised e ->
  handle main_routes (post_ner body) g =
  (Returned server_error, g, [EvCall t; EvRespond 500]).
Proof.
  intros Hg Hacc Hbody Hcall.
  unfold handle, catch_all, bind at 1.
  rewrite dispatch_post_ner. unfold run_endpoint.
  rewrite (read_body_accepted body Hacc), (validate_text _ _ Hbody).
  unfold bind at 1.
  rewrite (extract_entities_raised m g t e Hg Hcall).
  reflexivity.
Qed.

Lemma handle_ner_refused (g : Globals) (body : json) :
  accepted limits body = false ->
  handle main_routes (post_ner body) g =
  (Returned parse_failure, g, [EvRespond 400]).
Proof.
  intros Hacc. destruct (read_body_refused body Hacc) as [e He].
  unfold handle, catch_all, bind at 1.
  rewrite dispatch_post_ner. unfold run_endpoint.
  rewrite He. reflexivity.
Qed.

(** A [POST /ner] that the schema layer rejects, with a body or
    without. *)
Lemma handle_rejected (g : Globals) (body parsed : option json) (detail : json) :
  read_body body = Returned parsed ->
  validate_TextRequest parsed = inr detail ->
  renderable limits (JDict [("detail", detail)]) = true ->
  handle main_routes (mkRequest POST "/ner" body) g =
  (Returned (mkResponse 422 (JsonBody (JDict [("detail", detail)]))),
   g, [EvRespond 422]).
Proof.
  intros Hread Hv Hr.
  unfold handle, catch_all, bind at 1.
  change (dispatch main_routes (mkRequest POST "/ner" body))
    with (run_endpoint Ep_extract_entities body).
  unfold run_endpoint. rewrite Hread, Hv. unfold render. rewrite Hr.
  reflexivity.
Qed.

Lemma handle_unrendered (g : Globals) (body parsed : option json) (detail : json) :
  read_body body = Returned parsed ->
  validate_TextRequest parsed = inr detail ->
  renderable limits (JDict [("detail", detail)]) = false ->
  handle main_routes (mkRequest POST "/ner" body) g =
  (Returned server_error, g, [EvRespond 500]).
Proof.
  intros Hread Hv Hr.
  unfold handle, catch_all, bind at 1.
  change (dispatch main_routes (mkRequest POST "/ner" body))
    with (run_endpoint Ep_extract_entities body).
  unfold run_endpoint. rewrite Hread, Hv. unfold render. rewrite Hr.
  destruct (holds_nonfinite (JDict [("detail", detail)])); reflexivity.
Qed.

(** A [POST /ner] whose [text] is missing or not a string: the status is
    decided by the parser and by the rendering of the error, and the
    pipeline is not called. *)
Lemma handle_ner_invalid (g : Globals) (body : json) :
  text_missing_or_not_str body ->
  exists r,
    handle main_routes (post_ner body) g =
    (Returned r, g, [EvRespond (status_code r)]) /\
    status_code r =
    if accepted limits body then
      if error_renders (Some body) then 422 else 500
    else 400.
Proof.
  intros Hbad.
  destruct (accepted limits body) eqn:Hacc.
  - destruct (validate_rejects body Hbad) as [detail Hv].
    unfold error_renders. simpl option_map. rewrite Hv.
    destruct (renderable limits (JDict [("detail", detail)])) eqn:Hr.
    + exists (mkResponse 422 (JsonBody (JDict [("detail", detail)]))).
      split; [|reflexivity].
      exact (handle_rejected g (Some body) _ detail
               (read_body_accepted body Hacc) Hv Hr).
    + exists server_error. split; [|reflexivity].
      exact (handle_unrendered g (Some body) _ detail
               (read_body_accepted body Hacc) Hv Hr).
  - exists parse_failure. split; [|reflexivity].
    exact (handle_ner_refused g body Hacc).
Qed.

Lemma handle_get_root (g : Globals) :
  handle main_routes get_root g = (Returned root_ok, g, [EvRespond 200]).
Proof. reflexivity. Qed.

(** A text longer than the limit of a [gazetteer] pipeline is answered
    with 500, whatever the limit. *)
Lemma too_long_is_500 (max_length : Z) (t : str) :
  max_length < len t ->
  handle main_routes (post_ner (text_body t)) (ready (gazetteer max_length)) =
  (Returned server_error, ready (gazetteer max_length),
   [EvCall t; EvRespond 500]).
Proof.
  intros Hlong.
  apply (handle_ner_raised (gazetteer max_length) _ _ t
           (Exc "ValueError" "[E088] Text exceeds maximum length"));
    [reflexivity | apply text_body_accepted | apply text_body_field |].
  simpl. apply Z.ltb_lt in Hlong. rewrite Hlong. reflexivity.
Qed.

Lemma len_str_mul (c : ascii) (n : N) : len (str_mul c n) = Z.of_N n.
Proof.
  unfold str_mul, len.
  induction n as [|n IH] using N.peano_ind.
  - reflexivity.
  - rewrite N.iter_succ. simpl String.length.
    rewrite Nat2Z.inj_succ, IH. lia.
Qed.

Lemma long_text_is_too_long :
  handle main_routes (post_ner (text_body long_text)) (ready demo_nlp) =
  (Returned server_error, ready demo_nlp, [EvCall long_text; EvRespond 500]).
Proof.
  apply (too_long_is_500 1000000 long_text).
  unfold long_text. rewrite len_str_mul. lia.
Qed.

(** ** Requests leave the globals alone *)

Lemma extract_entities_frame (request : TextRequest) (g : Globals) :
  exists r tr, extract_entities request g = (r, g, tr) /\ at_most_a_call tr.
Proof.
  unfold extract_entities, bind, read_nlp, call_model, emit, bind.
  destruct (nlp g) as [m|].
  - simpl. destruct (lang_call m (text request)) as [d|e]; simpl;
      eexists; eexists; (split; [reflexivity | right; eexists; reflexivity]).
  - eexists; eexists; split; [reflexivity | left; reflexivity].
Qed.

Lemma run_endpoint_frame (ep : endpoint) (body : option json) (g : Globals) :
  exists r tr, run_endpoint ep body g = (r, g, tr) /\ at_most_a_call tr.
Proof.
  destruct ep; unfold run_endpoint.
  - eexists; eexists; split; [reflexivity | left; reflexivity].
  - destruct (read_body body) as [parsed|e];
      [|eexists; eexists; split; [reflexivity | left; reflexivity]].
    destruct (validate_TextRequest parsed) as [request|detail].
    + destruct (extract_entities_frame request g) as (r & tr & Hrun & Htr).
      unfold bind. rewrite Hrun.
      destruct r as [j|e]; simpl; eexists; eexists; (split; [reflexivity|]).
      * rewrite app_nil_r. exact Htr.
      * exact Htr.
    + destruct (render limits (JDict [("detail", detail)]));
        eexists; eexists; split; try reflexivity; left; reflexivity.
Qed.

Lemma dispatch_frame (routes : list Route) (req : Request) (g : Globals) :
  exists r tr, dispatch routes req g = (r, g, tr) /\ at_most_a_call tr.
Proof.
  unfold dispatch.
  destruct (filter (same_path (req_path req)) routes) as [|r0 rs].
  - eexists; eexists; split; [reflexivity | left; reflexivity].
  - destruct (find (same_method (req_method req)) (r0 :: rs)) as [r'|].
    + apply run_endpoint_frame.
    + eexists; eexists; split; [reflexivity | left; reflexivity].
Qed.

(** A request always gets a response, the globals are as before, and the
    trace is the call of the pipeline, if any, then the response. *)
Lemma handle_frame (routes : list Route) (req : Request) (g : Globals) :
  exists resp tr,
    handle routes req g =
    (Returned resp, g, tr ++ [EvRespond (status_code resp)]) /\
    at_most_a_call tr.
Proof.
  destruct (dispatch_frame routes req g) as (r & tr & Hrun & Htr).
  unfold handle, catch_all, bind at 1. rewrite Hrun.
  destruct r as [resp|e]; eexists; exists tr; (split; [reflexivity | exact Htr]).
Qed.

Lemma at_most_a_call_never_loaded (tr : list event) :
  at_most_a_call tr -> never_loaded tr.
Proof.
  intros [-> | [t ->]] n Hin; simpl in Hin.
  - exact Hin.
  - destruct Hin as [Heq | []]. discriminate.
Qed.

Lemma never_loaded_app (a b : list event) :
  never_loaded a -> never_loaded b -> never_loaded (a ++ b).
Proof.
  intros Ha Hb n Hin. apply in_app_or in Hin.
  destruct Hin as [Hin | Hin]; [exact (Ha n Hin) | exact (Hb n Hin)].
Qed.

Lemma never_loaded_respond (st : Z) : never_loaded [EvRespond st].
Proof. intros n [Heq | []]. discriminate. Qed.

(** Serving any list of requests: one response each, the globals as
    before, and the pipeline is not loaded again. *)
Lemma serve_frame (routes : list Route) (reqs : list Request) (g : Globals) :
  exists resps tr,
    serve routes reqs g = (Returned resps, g, tr) /\
    length resps = length reqs /\
    never_loaded tr.
Proof.
  induction reqs as [|req rest IH].
  - exists [], []. repeat split. intros n [].
  - destruct (handle_frame routes req g) as (resp & tr1 & Hh & Htr1).
    destruct IH as (resps & tr2 & Hs & Hlen & Htr2).
    simpl. unfold bind at 1. rewrite Hh.
    unfold bind at 1. rewrite Hs.
    eexists; eexists; split; [reflexivity | split].
    + simpl. rewrite Hlen. reflexivity.
    + simpl. rewrite app_nil_r.
      repeat apply never_loaded_app; auto using never_loaded_respond,
        at_most_a_call_never_loaded.
Qed.

Lemma serve_app (routes : list Route) (a b : list Request) (g : Globals)
      (ra rb : list Response) (ta tb : list event) :
  serve routes a g = (Returned ra, g, ta) ->
  serve routes b g = (Returned rb, g, tb) ->
  serve routes (a ++ b) g = (Returned (ra ++ rb), g, ta ++ tb).
Proof.
  revert ra ta. induction a as [|req rest IH]; intros ra ta Ha Hb.
  - simpl in Ha. unfold ret in Ha. inversion Ha; subst. exact Hb.
  - simpl in Ha |- *.
    destruct (handle_frame routes req g) as (resp & tr1 & Hh & _).
    destruct (serve_frame routes rest g) as (resps & tr2 & Hs & _ & _).
    unfold bind at 1 in Ha. rewrite Hh in Ha.
    unfold bind at 1 in Ha. rewrite Hs in Ha.
    simpl in Ha. inversion Ha; subst.
    unfold bind at 1. rewrite Hh.
    unfold bind at 1. rewrite (IH resps tr2 Hs Hb).
    simpl. rewrite !app_nil_r, <- !app_assoc. reflexivity.
Qed.

(** ** The import of main.py *)

Lemma main_module_loaded (spacy_load : str -> outcome Language) (m : Language) :
  spacy_load "en_core_web_sm" = Returned m ->
  main_module spacy_load no_globals =
  (Returned tt, ready m, [EvLoad "en_core_web_sm"]).
Proof.
  intros Hload.
  unfold main_module, load_model, bind, emit, bind_app.
  rewrite Hload. reflexivity.
Qed.

Lemma main_module_failed (spacy_load : str -> outcome Language) (e : exn) :
  spacy_load "en_core_web_sm" = Raised e ->
  main_module spacy_load no_globals =
  (Raised e, {| app := Some []; nlp := None |}, [EvLoad "en_core_web_sm"]).
Proof.
  intros Hload.
  unfold main_module, load_model, bind, emit, bind_app.
  rewrite Hload. reflexivity.
Qed.

Lemma process_loaded (spacy_load : str -> outcome Language)
      (reqs : list Request) (m : Language)
      (resps : list Response) (tr : list event) :
  spacy_load "en_core_web_sm" = Returned m ->
  serve main_routes reqs (ready m) = (Returned resps, ready m, tr) ->
  process spacy_load reqs no_globals =
  (Returned resps, ready m, EvLoad "en_core_web_sm" :: tr).
Proof.
  intros Hload Hs.
  unfold process, bind at 1.
  rewrite (main_module_loaded spacy_load m Hload).
  unfold bind, read_app. simpl app. cbv iota beta. rewrite Hs. reflexivity.
Qed.

Lemma process_failed (spacy_load : str -> outcome Language)
      (reqs : list Request) (e : exn) :
  spacy_load "en_core_web_sm" = Raised e ->
  process spacy_load reqs no_globals =
  (Raised e, {| app := Some []; nlp := None |}, [EvLoad "en_core_web_sm"]).
Proof.
  intros Hload.
  unfold process, bind at 1.
  rewrite (main_module_failed spacy_load e Hload). reflexivity.
Qed.

(** ** Lemmas on entities and spans *)

Lemma entity_dict_of_span (s : Span) : entity_of_span s (entity_dict s).
Proof. repeat split. Qed.

Lemma entity_dict_bounds (s : Span) :
  entity_bounds (entity_dict s) = Some (span_bounds s).
Proof. reflexivity. Qed.

Lemma entity_dict_in_text (t : str) (s : Span) :
  span_in_text t s = true -> entity_in_text t (entity_dict s).
Proof.
  unfold span_in_text. intros H.
  apply andb_prop in H. destruct H as [H Htxt].
  apply andb_prop in H. destruct H as [H Hend].
  apply andb_prop in H. destruct H as [Hstart Hlt].
  exists (span_text s), (start_char s), (end_char s).
  repeat split; try lia.
  apply String.eqb_eq. exact Htxt.
Qed.

Lemma ner_ok_entities (t : str) (d : Doc) :
  response_entities (ner_ok t d) = Some (map entity_dict (ents d)).
Proof. reflexivity. Qed.

Lemma spans_ordered_head (rest : list Span) :
  forall a, spans_ordered (a :: rest) = true ->
  forall j b, nth_error rest j = Some b -> start_char a <= start_char b.
Proof.
  induction rest as [|c rest IH]; intros a H j b Hn.
  - destruct j; discriminate Hn.
  - simpl in H.
    apply andb_prop in H. destruct H as [H Hrest].
    apply andb_prop in H. destruct H as [Hss Hes].
    destruct j as [|j]; simpl in Hn.
    + inversion Hn; subst. lia.
    + specialize (IH c Hrest j b Hn). lia.
Qed.

Lemma spans_ordered_tail (a : Span) (rest : list Span) :
  spans_ordered (a :: rest) = true -> spans_ordered rest = true.
Proof.
  destruct rest as [|b rest]; [reflexivity|].
  simpl. intros H. apply andb_prop in H. destruct H as [_ H]. exact H.
Qed.

Lemma spans_ordered_sorted (l : list Span) :
  spans_ordered l = true -> sorted_by_start (map span_bounds l).
Proof.
  induction l as [|a rest IH]; intros H i j x y Hij Hi Hj.
  - destruct i; discriminate Hi.
  - destruct j as [|j]; [lia|].
    simpl in Hj. rewrite nth_error_map in Hj.
    destruct (nth_error rest j) as [b|] eqn:Hb; [|discriminate Hj].
    inversion Hj; subst y. clear Hj.
    destruct i as [|i]; simpl in Hi.
    + inversion Hi; subst x. simpl.
      exact (spans_ordered_head rest a H j b Hb).
    + apply (IH (spans_ordered_tail a rest H) i j x (span_bounds b)).
      * lia.
      * exact Hi.
      * rewrite nth_error_map, Hb. reflexivity.
Qed.

Lemma spans_ordered_next (l : list Span) :
  spans_ordered l = true -> next_starts_after (map span_bounds l).
Proof.
  induction l as [|a rest IH]; intros H i x y Hi Hj.
  - destruct i; discriminate Hi.
  - destruct i as [|i]; simpl in Hi, Hj.
    + inversion Hi; subst x.
      destruct rest as [|b rest]; [discriminate Hj|].
      simpl in Hj. inversion Hj; subst y.
      simpl in H.
      apply andb_prop in H. destruct H as [H _].
      apply andb_prop in H. destruct H as [_ Hes].
      simpl. lia.
    + exact (IH (spans_ordered_tail a rest H) i x y Hi Hj).
Qed.

(** No span fits in the empty text. *)
Lemma no_span_in_empty_text (l : list Span) :
  forallb (span_in_text EmptyString) l = true -> l = [].
Proof.
  destruct l as [|s l]; [reflexivity|].
  simpl. unfold span_in_text at 1. intros H.
  apply andb_prop in H. destruct H as [H _].
  apply andb_prop in H. destruct H as [H _].
  apply andb_prop in H. destruct H as [H Hend].
  apply andb_prop in H. destruct H as [Hstart Hlt].
  change (len EmptyString) with 0 in Hend. lia.
Qed.


(** ** Every request, case by case *)

Lemma text_field_cases (body : json) :
  text_missing_or_not_str body \/
  exists t, json_field body "text" = Some (JStr t).
Proof.
  unfold text_missing_or_not_str.
  destruct (json_field body "text") as [v|]; [|left; discriminate].
  destruct v; try (left; discriminate).
  right. exists s. reflexivity.
Qed.

Lemma ner_text_post_ner (body : json) (t : str) :
  accepted limits body = true ->
  json_field body "text" = Some (JStr t) -> ner_text (post_ner body) = Some t.
Proof.
  intros Hacc H. unfold ner_text, post_ner.
  cbn [req_method req_body req_path].
  change (String.eqb "/ner" "/ner") with true.
  rewrite Hacc, H. reflexivity.
Qed.

Lemma ner_text_refused (body : json) :
  accepted limits body = false -> ner_text (post_ner body) = None.
Proof.
  intros Hacc. unfold ner_text, post_ner.
  cbn [req_method req_body req_path].
  rewrite Hacc, andb_false_r. reflexivity.
Qed.

Lemma ner_text_invalid (body : json) :
  text_missing_or_not_str body -> ner_text (post_ner body) = None.
Proof.
  unfold text_missing_or_not_str. intros Hbad. unfold ner_text, post_ner.
  cbn [req_method req_body req_path].
  destruct (String.eqb "/ner" "/ner" && accepted limits body); [|reflexivity].
  destruct (json_field body "text") as [v|]; [|reflexivity].
  destruct v; try reflexivity.
  exfalso. apply (Hbad s). reflexivity.
Qed.

(** Where the two routes send a request. *)
Lemma dispatch_main_routes (req : Request) :
  (req_method req = GET /\ req_path req = "/" /\
   dispatch main_routes req = run_endpoint Ep_read_root (req_body req)) \/
  (req_method req = POST /\ req_path req = "/ner" /\
   dispatch main_routes req = run_endpoint Ep_extract_entities (req_body req)) \/
  (ner_text req = None /\
   exists r, dispatch main_routes req = ret r /\
             (status_code r = 404 \/ status_code r = 405)).
Proof.
  destruct req as [meth path body].
  unfold dispatch, ner_text, main_routes, same_path, same_method.
  cbn [filter find req_path req_method req_body route_path route_method
       route_endpoint].
  destruct (String.eqb "/" path) eqn:Eroot.
  - apply String.eqb_eq in Eroot. subst path.
    change (String.eqb "/ner" "/") with false. cbv iota.
    cbn [find route_method route_endpoint method_eqb andb].
    destruct meth; cbn [method_eqb].
    + left. repeat split.
    + right; right. split; [destruct body; reflexivity|].
      eexists; split; [reflexivity | right; reflexivity].
    + right; right. split; [reflexivity|].
      eexists; split; [reflexivity | right; reflexivity].
    + right; right. split; [reflexivity|].
      eexists; split; [reflexivity | right; reflexivity].
  - destruct (String.eqb "/ner" path) eqn:Ener.
    + apply String.eqb_eq in Ener. subst path.
      cbn [find route_method route_endpoint method_eqb].
      destruct meth; cbn [method_eqb].
      * right; right. split; [reflexivity|].
        eexists; split; [reflexivity | right; reflexivity].
      * right; left. repeat split.
      * right; right. split; [reflexivity|].
        eexists; split; [reflexivity | right; reflexivity].
      * right; right. split; [reflexivity|].
        eexists; split; [reflexivity | right; reflexivity].
    + right; right. split.
      * destruct meth; try reflexivity. destruct body; reflexivity.
      * eexists; split; [reflexivity | left; reflexivity].
Qed.

(** A [POST /ner] without a body. *)
Lemma handle_no_body (g : Globals) :
  exists r,
    handle main_routes (mkRequest POST "/ner" None) g =
    (Returned r, g, [EvRespond (status_code r)]) /\
    status_code r = if error_renders None then 422 else 500.
Proof.
  unfold error_renders. simpl option_map.
  destruct (validate_TextRequest None) as [request|detail] eqn:Hv;
    [discriminate Hv|].
  destruct (renderable limits (JDict [("detail", detail)])) eqn:Hr.
  - exists (mkResponse 422 (JsonBody (JDict [("detail", detail)]))).
    split; [|reflexivity].
    exact (handle_rejected g None None detail eq_refl Hv Hr).
  - exists server_error. split; [|reflexivity].
    exact (handle_unrendered g None None detail eq_refl Hv Hr).
Qed.

(** The ways any request ends, once [nlp] is bound: without a call of the
    pipeline, and then with a 500 only for a [POST /ner] whose validation
    error cannot be rendered; with the call returning; with the call
    raising. *)
Lemma handle_cases (m : Language) (g : Globals) (req : Request) :
  nlp g = Some m ->
  (ner_text req = None /\
   exists r, handle main_routes req g =
             (Returned r, g, [EvRespond (status_code r)]) /\
             (status_code r = 500 ->
              req_method req = POST /\ req_path req = "/ner" /\
              error_renders (req_body req) = false)) \/
  (exists t d, ner_text req = Some t /\ lang_call m t = Returned d /\
     handle main_routes req g =
     (Returned (ner_ok t d), g, [EvCall t; EvRespond 200])) \/
  (exists t e, ner_text req = Some t /\ lang_call m t = Raised e /\
     handle main_routes req g =
     (Returned server_error, g, [EvCall t; EvRespond 500])).
Proof.
  intros Hg.
  destruct (dispatch_main_routes req)
    as [(Hm & Hp & Hd) | [(Hm & Hp & Hd) | (Hn & r & Hd & Hst)]].
  - left. split.
    + unfold ner_text. rewrite Hm. reflexivity.
    + exists root_ok. split; [|discriminate].
      unfold handle, catch_all, bind at 1. rewrite Hd. reflexivity.
  - destruct req as [meth path body].
    cbn [req_method req_path req_body] in Hm, Hp, Hd |- *. subst meth path.
    destruct body as [b|].
    + change (mkRequest POST "/ner" (Some b)) with (post_ner b).
      destruct (accepted limits b) eqn:Hacc.
      * destruct (text_field_cases b) as [Hbad | [t Hf]].
        -- left. split; [exact (ner_text_invalid b Hbad)|].
           destruct (handle_ner_invalid g b Hbad) as (r & Hrun & Hst).
           exists r. split; [exact Hrun|].
           rewrite Hacc in Hst. intros H500.
           split; [reflexivity|]. split; [reflexivity|].
           destruct (error_renders (Some b)); [|reflexivity].
           rewrite Hst in H500. discriminate H500.
        -- destruct (lang_call m t) as [d|e] eqn:Hcall.
           ++ right; left. exists t, d.
              split; [exact (ner_text_post_ner b t Hacc Hf)|].
              split; [exact Hcall|].
              exact (handle_ner_returned m g b t d Hg Hacc Hf Hcall).
           ++ right; right. exists t, e.
              split; [exact (ner_text_post_ner b t Hacc Hf)|].
              split; [exact Hcall|].
              exact (handle_ner_raised m g b t e Hg Hacc Hf Hcall).
      * left. split; [exact (ner_text_refused b Hacc)|].
        exists parse_failure. split; [exact (handle_ner_refused g b Hacc)|].
        discriminate.
    + left. split; [reflexivity|].
      destruct (handle_no_body g) as (r & Hrun & Hst).
      exists r. split; [exact Hrun|].
      intros H500. split; [reflexivity|]. split; [reflexivity|].
      destruct (error_renders None); [|reflexivity].
      rewrite Hst in H500. discriminate H500.
  - left. split; [exact Hn|]. exists r. split.
    + unfold handle, catch_all, bind at 1. rewrite Hd. reflexivity.
    + destruct Hst as [H | H]; rewrite H; discriminate.
Qed.

Lemma calls_of_app (a b : list event) :
  calls_of (a ++ b) = calls_of a ++ calls_of b.
Proof.
  induction a as [|e a IH]; [reflexivity|].
  destruct e; simpl; rewrite IH; reflexivity.
Qed.

Lemma statuses_of_app (a b : list event) :
  statuses_of (a ++ b) = statuses_of a ++ statuses_of b.
Proof.
  induction a as [|e a IH]; [reflexivity|].
  destruct e; simpl; rewrite IH; reflexivity.
Qed.

Lemma serve_cons (routes : list Route) (req : Request) (rest : list Request)
      (g : Globals) (resp : Response) (resps : list Response)
      (tr1 tr2 : list event) :
  handle routes req g = (Returned resp, g, tr1) ->
  serve routes rest g = (Returned resps, g, tr2) ->
  serve routes (req :: rest) g = (Returned (resp :: resps), g, tr1 ++ tr2).
Proof.
  intros Hh Hs. simpl.
  unfold bind at 1. rewrite Hh.
  unfold bind at 1. rewrite Hs.
  simpl. rewrite app_nil_r. reflexivity.
Qed.

Lemma entity_dict_injective (s1 s2 : Span) :
  entity_dict s1 = entity_dict s2 -> s1 = s2.
Proof.
  destruct s1, s2. unfold entity_dict. simpl.
  intros H. inversion H. reflexivity.
Qed.

Lemma map_entity_dict_injective (l1 l2 : list Span) :
  map entity_dict l1 = map entity_dict l2 -> l1 = l2.
Proof.
  revert l2. induction l1 as [|s1 l1 IH]; intros [|s2 l2] H;
    try discriminate H; [reflexivity|].
  simpl in H.
  assert (Hhead : entity_dict s1 = entity_dict s2) by congruence.
  assert (Htail : map entity_dict l1 = map entity_dict l2) by congruence.
  f_equal; [apply entity_dict_injective; exact Hhead | apply IH; exact Htail].
Qed.

(** ** Lemmas on the string store *)




(** ** The properties of the specification *)

(** C1, amended: for every string [t] on which the pipeline returns,
    [POST /ner] with body [{"text": t}] answers with status 200 and an
    [input] field equal to [t], unmodified. *)
Theorem ner_echoes_input (m : Language) (t : str) (d : Doc) :
  lang_call m t = Returned d ->
  exists r tr,
    handle main_routes (post_ner (text_body t)) (ready m) =
    (Returned r, ready m, tr) /\
    echoes t r.
Proof.
  intros Hcall. exists (ner_ok t d), [EvCall t; EvRespond 200]. split.
  - apply (handle_ner_returned m);
      [reflexivity | apply text_body_accepted | apply text_body_field
      | exact Hcall].
  - split; reflexivity.
Qed.


(** C3: on a successful [POST /ner] for [t], where the pipeline kept the
    Entity invariant on its spans, every returned entity [e] has
    [0 <= e.start_char < e.end_char <= len(t)] and
    [t[e.start_char:e.end_char] == e.text]. *)
Theorem ner_entities_lie_in_text (m : Language) (body : json) (t : str)
        (r : Response) (g : Globals) (tr : list event) :
  json_field body "text" = Some (JStr t) ->
  answers_in_text m t = true ->
  handle main_routes (post_ner body) (ready m) = (Returned r, g, tr) ->
  status_code r = 200 ->
  entities_in_text t r.
Proof.
  unfold answers_in_text. intros Hbody Hspans Hrun Hstatus.
  destruct (accepted limits body) eqn:Hacc.
  - destruct (lang_call m t) as [d|e] eqn:Hcall.
    + rewrite (handle_ner_returned m (ready m) body t d) in Hrun;
        [| reflexivity | exact Hacc | exact Hbody | exact Hcall].
      inversion Hrun; subst r.
      exists (map entity_dict (ents d)). split; [apply ner_ok_entities|].
      apply Forall_forall. intros e He.
      apply in_map_iff in He. destruct He as (s & <- & Hs).
      apply entity_dict_in_text.
      rewrite forallb_forall in Hspans. exact (Hspans s Hs).
    + rewrite (handle_ner_raised m (ready m) body t e) in Hrun;
        [| reflexivity | exact Hacc | exact Hbody | exact Hcall].
      inversion Hrun; subst r. discriminate Hstatus.
  - rewrite (handle_ner_refused (ready m) body Hacc) in Hrun.
    inversion Hrun; subst r. discriminate Hstatus.
Qed.

(** C4: on a successful [POST /ner], where the pipeline returned its spans
    left to right and non-overlapping, the [entities] of the response are
    sorted by [start_char] ascending and each entity's [end_char] is at
    most the next entity's [start_char]. *)
Theorem ner_entities_are_ordered (m : Language) (body : json) (t : str)
        (r : Response) (g : Globals) (tr : list event) :
  json_field body "text" = Some (JStr t) ->
  answers_ordered m t = true ->
  handle main_routes (post_ner body) (ready m) = (Returned r, g, tr) ->
  status_code r = 200 ->
  entities_ordered r.
Proof.
  unfold answers_ordered. intros Hbody Hspans Hrun Hstatus.
  destruct (accepted limits body) eqn:Hacc.
  - destruct (lang_call m t) as [d|e] eqn:Hcall.
    + rewrite (handle_ner_returned m (ready m) body t d) in Hrun;
        [| reflexivity | exact Hacc | exact Hbody | exact Hcall].
      inversion Hrun; subst r.
      exists (map entity_dict (ents d)), (map span_bounds (ents d)).
      split; [apply ner_ok_entities|]. split.
      * rewrite !map_map. apply map_ext. intros s. apply entity_dict_bounds.
      * split; [apply spans_ordered_sorted | apply spans_ordered_next];
          exact Hspans.
    + rewrite (handle_ner_raised m (ready m) body t e) in Hrun;
        [| reflexivity | exact Hacc | exact Hbody | exact Hcall].
      inversion Hrun; subst r. discriminate Hstatus.
  - rewrite (handle_ner_refused (ready m) body Hacc) in Hrun.
    inversion Hrun; subst r. discriminate Hstatus.
Qed.

(** C5: [GET /] is answered with status 200 and [{"message": m}], [m] a
    fixed non-empty string; it changes no global and calls nothing; and
    after any history of requests the answer is the same. *)
Theorem root_is_alive_after_any_history (g : Globals) (history : list Request) :
  handle main_routes get_root g = (Returned root_ok, g, [EvRespond 200]) /\
  status_code root_ok = 200 /\
  json_of root_ok = Some (JDict [("message", JStr "NER microservice is running!")]) /\
  "NER microservice is running!" <> EmptyString /\
  exists resps tr,
    serve main_routes (history ++ [get_root]) g =
    (Returned (resps ++ [root_ok]), g, tr ++ [EvRespond 200]) /\
    length resps = length history.
Proof.
  split; [apply handle_get_root|].
  split; [reflexivity|]. split; [reflexivity|]. split; [discriminate|].
  destruct (serve_frame main_routes history g) as (resps & tr & Hs & Hlen & _).
  exists resps, tr. split; [|exact Hlen].
  apply serve_app; [exact Hs | reflexivity].
Qed.

(** C6: when the pipeline raises on the text of a [POST /ner],
    [extract_entities] ends with that same exception, uncaught, after the
    one call, and the request is answered with the plain-text status
    500. The body is one the parser accepts, so that the request reaches
    the pipeline. *)
Theorem pipeline_error_surfaces_as_500 (m : Language) (body : json)
        (t : str) (e : exn) :
  accepted limits body = true ->
  json_field body "text" = Some (JStr t) ->
  lang_call m t = Raised e ->
  extract_entities (mkTextRequest t) (ready m) = (Raised e, ready m, [EvCall t]) /\
  handle main_routes (post_ner body) (ready m) =
  (Returned server_error, ready m, [EvCall t; EvRespond 500]) /\
  status_code server_error = 500 /\
  json_of server_error = None.
Proof.
  intros Hacc Hbody Hcall. split.
  - apply (extract_entities_raised m); [reflexivity | exact Hcall].
  - split; [|split; reflexivity].
    apply (handle_ner_raised m (ready m) body t e);
      [reflexivity | exact Hacc | exact Hbody | exact Hcall].
Qed.

(** C7: a process loads the model once, as the first thing it does and so
    before any response. When the load raises, the process ends with that
    exception and nothing else happens: no request is answered. When it
    returns, every request is answered. *)
Theorem model_is_loaded_once_at_startup
        (spacy_load : str -> outcome Language) (reqs : list Request) :
  exists rest,
    trace_of (process spacy_load reqs no_globals) =
    EvLoad "en_core_web_sm" :: rest /\
    never_loaded rest /\
    match spacy_load "en_core_web_sm" with
    | Returned m =>
        exists resps,
          result_of (process spacy_load reqs no_globals) = Returned resps /\
          length resps = length reqs /\
          globals_of (process spacy_load reqs no_globals) = ready m
    | Raised e =>
        result_of (process spacy_load reqs no_globals) = Raised e /\
        rest = []
    end.
Proof.
  destruct (spacy_load "en_core_web_sm") as [m|e] eqn:Hload.
  - destruct (serve_frame main_routes reqs (ready m))
      as (resps & tr & Hs & Hlen & Htr).
    rewrite (process_loaded spacy_load reqs m resps tr Hload Hs).
    exists tr. split; [reflexivity|]. split; [exact Htr|].
    exists resps. repeat split. exact Hlen.
  - rewrite (process_failed spacy_load reqs e Hload).
    exists []. split; [reflexivity|]. split; [intros n []|].
    split; reflexivity.
Qed.


(** C9: when the pipeline returns, the [entities] of the response are the
    image of [doc.ents], element by element: as many, in the same order,
    and each one the dict of exactly the four fields [text], [label],
    [start_char], [end_char] of its span. The body is one the parser
    accepts, so that the request reaches the pipeline. *)
Theorem entities_are_the_image_of_ents (m : Language) (body : json)
        (t : str) (d : Doc) :
  accepted limits body = true ->
  json_field body "text" = Some (JStr t) ->
  lang_call m t = Returned d ->
  exists r tr es,
    handle main_routes (post_ner body) (ready m) =
    (Returned r, ready m, tr) /\
    response_entities r = Some es /\
    length es = length (ents d) /\
    Forall2 entity_of_span (ents d) es.
Proof.
  intros Hacc Hbody Hcall.
  exists (ner_ok t d), [EvCall t; EvRespond 200], (map entity_dict (ents d)).
  split.
  { apply (handle_ner_returned m);
      [reflexivity | exact Hacc | exact Hbody | exact Hcall]. }
  split; [apply ner_ok_entities|]. split; [apply length_map|].
  induction (ents d) as [|s l IH]; simpl; constructor.
  - apply entity_dict_of_span.
  - exact IH.
Qed.

(** C10: for the empty text, when the pipeline returns and kept the Entity
    invariant on its spans, [POST /ner] whose [text] is the empty string
    answers with status 200, [input] equal to the empty string and an
    empty [entities] list. *)
Theorem empty_text_has_no_entities (m : Language) (d : Doc) :
  lang_call m EmptyString = Returned d ->
  answers_in_text m EmptyString = true ->
  handle main_routes (post_ner (text_body EmptyString)) (ready m) =
  (Returned
     (mkResponse 200
        (JsonBody (JDict [("entities", JList []); ("input", JStr EmptyString)]))),
   ready m, [EvCall EmptyString; EvRespond 200]).
Proof.
  intros Hcall Hspans.
  unfold answers_in_text in Hspans. rewrite Hcall in Hspans.
  rewrite (handle_ner_returned m (ready m) (text_body EmptyString) EmptyString d);
    [| reflexivity | apply text_body_accepted | apply text_body_field
     | exact Hcall].
  unfold ner_ok. rewrite (no_span_in_empty_text (ents d) Hspans).
  reflexivity.
Qed.

(** ** Further properties of the service *)

(** X1: the pipeline is called for a request exactly when the request is
    a [POST] on [/ner] whose body the parser accepts and which has a
    string under [text]; it is then called once, on that string as it
    came. No other request reaches it. *)
Theorem pipeline_called_exactly_for_ner_texts (m : Language) (req : Request) :
  calls_of (trace_of (handle main_routes req (ready m))) =
  match ner_text req with
  | Some t => [t]
  | None => []
  end.
Proof.
  destruct (handle_cases m (ready m) req eq_refl)
    as [(Hn & r & Hrun & _) | [(t & d & Hn & _ & Hrun) | (t & e & Hn & _ & Hrun)]];
    rewrite Hrun, Hn; reflexivity.
Qed.



(** X4: requests do not affect one another: in any sequence of requests,
    each response is the one its request gets when handled alone. *)
Theorem requests_are_isolated (routes : list Route) (reqs : list Request)
        (g : Globals) :
  exists resps tr,
    serve routes reqs g = (Returned resps, g, tr) /\
    Forall2 (fun req r => result_of (handle routes req g) = Returned r)
            reqs resps.
Proof.
  induction reqs as [|req rest IH].
  - exists [], []. split; [reflexivity | constructor].
  - destruct IH as (resps & tr2 & Hs & Hall).
    destruct (handle_frame routes req g) as (resp & tr1 & Hh & _).
    eexists; eexists. split.
    + exact (serve_cons routes req rest g resp resps _ tr2 Hh Hs).
    + constructor; [rewrite Hh; reflexivity | exact Hall].
Qed.

(** X5: serving a sequence of requests answers each request with the
    response it gets when handled alone; the trace holds the statuses of
    these responses in the order of the requests, and one call of the
    pipeline for each request that brought a text to [extract_entities],
    on that text and in that order: the pipeline is never called again
    for a request that failed, and never for another request. *)
Theorem serve_trace_is_accounted_for (m : Language) (reqs : list Request) :
  exists resps tr,
    serve main_routes reqs (ready m) = (Returned resps, ready m, tr) /\
    Forall2 (fun req r =>
               result_of (handle main_routes req (ready m)) = Returned r)
            reqs resps /\
    statuses_of tr = map status_code resps /\
    calls_of tr = ner_texts reqs.
Proof.
  induction reqs as [|req rest IH].
  - exists [], []. repeat split. constructor.
  - destruct IH as (resps & tr2 & Hs & Hall & Hst & Hcl).
    destruct (handle_cases m (ready m) req eq_refl)
      as [(Hn & r & Hrun & _) | [(t & d & Hn & _ & Hrun) | (t & e & Hn & _ & Hrun)]];
      eexists; eexists;
      (split; [exact (serve_cons _ _ _ _ _ _ _ _ Hrun Hs)|]);
      (split; [constructor; [rewrite Hrun; reflexivity | exact Hall]|]);
      rewrite statuses_of_app, calls_of_app, Hst, Hcl;
      cbn [ner_texts]; rewrite Hn; split; reflexivity.
Qed.

(** X6: the response of [extract_entities] loses nothing of what it was
    built from: two successful responses that are equal come from the
    same text and the same spans (text, label and offsets). *)
Theorem response_keeps_text_and_spans (m m' : Language) (t t' : str)
        (d d' : Doc) :
  lang_call m t = Returned d ->
  lang_call m' t' = Returned d' ->
  result_of (handle main_routes (post_ner (text_body t)) (ready m)) =
  result_of (handle main_routes (post_ner (text_body t')) (ready m')) ->
  t = t' /\ ents d = ents d'.
Proof.
  intros Hcall Hcall'.
  rewrite (handle_ner_returned m (ready m) (text_body t) t d eq_refl
             (text_body_accepted t) (text_body_field t) Hcall).
  rewrite (handle_ner_returned m' (ready m') (text_body t') t' d' eq_refl
             (text_body_accepted t') (text_body_field t') Hcall').
  unfold result_of, ner_ok. cbn [fst].
  intros H.
  assert (Ht : t = t') by congruence.
  assert (Hents : map entity_dict (ents d) = map entity_dict (ents d'))
    by congruence.
  split; [exact Ht | exact (map_entity_dict_injective _ _ Hents)].
Qed.

(** X7: of a body the parser accepts, only the [text] counts: two such
    bodies with the same string under [text], whatever else they hold, get
    the same response and cause the same call. *)
Theorem only_the_text_of_a_body_counts (m : Language) (b1 b2 : json) (t : str) :
  accepted limits b1 = true ->
  accepted limits b2 = true ->
  json_field b1 "text" = Some (JStr t) ->
  json_field b2 "text" = Some (JStr t) ->
  handle main_routes (post_ner b1) (ready m) =
  handle main_routes (post_ner b2) (ready m).
Proof.
  intros A1 A2 H1 H2.
  destruct (lang_call m t) as [d|e] eqn:Hcall.
  - rewrite (handle_ner_returned m (ready m) b1 t d eq_refl A1 H1 Hcall).
    rewrite (handle_ner_returned m (ready m) b2 t d eq_refl A2 H2 Hcall).
    reflexivity.
  - rewrite (handle_ner_raised m (ready m) b1 t e eq_refl A1 H1 Hcall).
    rewrite (handle_ner_raised m (ready m) b2 t e eq_refl A2 H2 Hcall).
    reflexivity.
Qed.

End Service.

(** ** Runs on concrete inputs *)

Example run_obama :
  handle example_limits main_routes (post_ner (text_body obama)) (ready demo_nlp) =
  (Returned
     (mkResponse 200
        (JsonBody
           (JDict
              [("entities",
                JList
                  [JDict [("text", JStr "Barack Obama"); ("label", JStr "PERSON");
                          ("start_char", JInt 0); ("end_char", JInt 12)];
                   JDict [("text", JStr "Hawaii"); ("label", JStr "GPE");
                          ("start_char", JInt 25); ("end_char", JInt 31)]]);
               ("input", JStr obama)]))),
   ready demo_nlp,
   [EvCall obama; EvRespond 200]).
Proof. vm_compute. reflexivity. Qed.

Example run_too_long :
  handle example_limits main_routes (post_ner (text_body obama)) (ready short_nlp) =
  (Returned server_error, ready short_nlp, [EvCall obama; EvRespond 500]).
Proof. vm_compute. reflexivity. Qed.

Example run_not_a_string :
  handle example_limits main_routes (post_ner (JDict [("text", JBool true)]))
         (ready demo_nlp) =
  (Returned
     (mkResponse 422
        (JsonBody
           (JDict [("detail",
                    validation_error "string_type" ["body"; "text"]
                      "Input should be a valid string" (JBool true))]))),
   ready demo_nlp,
   [EvRespond 422]).
Proof. vm_compute. reflexivity. Qed.


Example run_nan_beside_text_missing :
  handle example_limits main_routes
         (post_ner (JDict [("n", JFloat (FInf false))])) (ready demo_nlp) =
  (Returned server_error, ready demo_nlp, [EvRespond 500]).
Proof. vm_compute. reflexivity. Qed.

Example run_twice_written_key :
  handle example_limits main_routes
         (post_ner (JDict [("text", JFloat FNaN); ("text", JStr obama)]))
         (ready demo_nlp) =
  handle example_limits main_routes (post_ner (text_body obama)) (ready demo_nlp).
Proof. vm_compute. reflexivity. Qed.

Example run_process_demo :
  process example_limits demo_load [get_root; mkRequest GET "/ner" None]
          no_globals =
  (Returned
     [root_ok;
      mkResponse 405 (JsonBody (JDict [("detail", JStr "Method Not Allowed")]))],
   ready demo_nlp,
   [EvLoad "en_core_web_sm"; EvRespond 200; EvRespond 405]).
Proof. vm_compute. reflexivity. Qed.

Example run_process_missing :
  process example_limits missing_load [get_root] no_globals =
  (Raised (Exc "OSError" "[E050] Can't find model"),
   {| app := Some []; nlp := None |},
   [EvLoad "en_core_web_sm"]).
Proof. vm_compute. reflexivity. Qed.

Example slice_obama : py_slice obama 25 31 = "Hawaii".
Proof. reflexivity. Qed.

Example slice_negative : py_slice obama (-7) (-1) = "Hawaii".
Proof. reflexivity. Qed.

Example contracts_obama :
  answers_in_text demo_nlp obama = true /\ answers_ordered demo_nlp obama = true.
Proof. split; reflexivity. Qed.



Lemma int_of_4301_digits_is_long :
  int_too_long example_limits (10 ^ 4300) = true.
Proof.
  unfold int_too_long, example_limits. cbn [max_str_digits].
  apply andb_true_intro. split; [reflexivity|].
  apply Z.leb_le. rewrite Z.abs_eq; [apply Z.le_refl|].
  apply Z.pow_nonneg. discriminate.
Qed.


Lemma long_int_body_refused : accepted example_limits long_int_body = false.
Proof.
  apply (long_int_is_refused example_limits _ "text" (10 ^ 4300));
    [left; reflexivity | exact int_of_4301_digits_is_long].
Qed.

(** A [text] of 4301 digits: the parser gives up and the answer is 400. *)
Lemma run_long_int :
  handle example_limits main_routes (post_ner long_int_body) (ready demo_nlp) =
  (Returned parse_failure, ready demo_nlp, [EvRespond 400]).
Proof.
  apply handle_ner_refused. exact long_int_body_refused.
Qed.

(** A string under [text] beside a number of 4301 digits: 400 again, and
    no call of the pipeline. *)
Lemma run_long_int_beside_text :
  handle example_limits main_routes
         (post_ner (JDict [("text", JStr "Oslo"); ("n", JInt (10 ^ 4300))]))
         (ready demo_nlp) =
  (Returned parse_failure, ready demo_nlp, [EvRespond 400]).
Proof.
  apply handle_ner_refused.
  apply (long_int_is_refused example_limits _ "n" (10 ^ 4300));
    [right; left; reflexivity | exact int_of_4301_digits_is_long].
Qed.

(** ** The properties at concrete inputs *)

(** C1, as the spec states it, fails: a valid string on which the
    pipeline raises is not answered with 200. A spaCy pipeline refuses a
    text longer than its [max_length], 1,000,000 characters unless it is
    changed; here [demo_nlp] refuses the 1,000,001 characters of
    [long_text], and the response is the 500 of [long_text_is_too_long]. *)
Lemma echo_fails_when_pipeline_raises :
  ~ echoes_always example_limits demo_nlp long_text.
Proof.
  intros (r & g & tr & Hrun & Hstatus & _).
  rewrite long_text_is_too_long in Hrun.
  assert (Hr : r = server_error) by congruence.
  rewrite Hr in Hstatus. discriminate Hstatus.
Qed.

Lemma ner_echoes_input_witness :
  lang_call demo_nlp obama = Returned obama_doc /\
  exists r tr,
    handle example_limits main_routes (post_ner (text_body obama))
           (ready demo_nlp) =
    (Returned r, ready demo_nlp, tr) /\
    echoes obama r.
Proof.
  split; [reflexivity|].
  apply (ner_echoes_input example_limits demo_nlp obama obama_doc). reflexivity.
Defined.



Lemma ner_entities_lie_in_text_witness :
  answers_in_text demo_nlp obama = true /\
  entities_in_text obama (ner_ok obama obama_doc).
Proof.
  split; [reflexivity|].
  apply (ner_entities_lie_in_text example_limits demo_nlp (text_body obama)
           obama (ner_ok obama obama_doc) (ready demo_nlp)
           [EvCall obama; EvRespond 200]).
  - reflexivity.
  - reflexivity.
  - vm_compute. reflexivity.
  - reflexivity.
Defined.

Lemma ner_entities_are_ordered_witness :
  answers_ordered demo_nlp obama = true /\
  entities_ordered (ner_ok obama obama_doc).
Proof.
  split; [reflexivity|].
  apply (ner_entities_are_ordered example_limits demo_nlp (text_body obama)
           obama (ner_ok obama obama_doc) (ready demo_nlp)
           [EvCall obama; EvRespond 200]).
  - reflexivity.
  - reflexivity.
  - vm_compute. reflexivity.
  - reflexivity.
Defined.

Lemma pipeline_error_surfaces_as_500_witness :
  extract_entities (mkTextRequest obama) (ready short_nlp) =
  (Raised (Exc "ValueError" "[E088] Text exceeds maximum length"),
   ready short_nlp, [EvCall obama]) /\
  handle example_limits main_routes (post_ner (text_body obama))
         (ready short_nlp) =
  (Returned server_error, ready short_nlp, [EvCall obama; EvRespond 500]) /\
  status_code server_error = 500 /\
  json_of server_error = None.
Proof.
  apply (pipeline_error_surfaces_as_500 example_limits short_nlp
           (text_body obama) obama
           (Exc "ValueError" "[E088] Text exceeds maximum length")).
  - reflexivity.
  - reflexivity.
  - reflexivity.
Defined.



Lemma entities_are_the_image_of_ents_witness :
  exists r tr es,
    handle example_limits main_routes (post_ner (text_body obama))
           (ready demo_nlp) =
    (Returned r, ready demo_nlp, tr) /\
    response_entities r = Some es /\
    length es = length (ents obama_doc) /\
    Forall2 entity_of_span (ents obama_doc) es.
Proof.
  apply (entities_are_the_image_of_ents example_limits demo_nlp
           (text_body obama) obama obama_doc); reflexivity.
Defined.

Lemma empty_text_has_no_entities_witness :
  handle example_limits main_routes (post_ner (text_body EmptyString))
         (ready demo_nlp) =
  (Returned
     (mkResponse 200
        (JsonBody (JDict [("entities", JList []); ("input", JStr EmptyString)]))),
   ready demo_nlp, [EvCall EmptyString; EvRespond 200]).
Proof.
  apply (empty_text_has_no_entities example_limits demo_nlp (mkDoc []));
    reflexivity.
Defined.


Lemma response_keeps_text_and_spans_witness :
  obama = obama /\ ents obama_doc = ents obama_doc.
Proof.
  apply (response_keeps_text_and_spans example_limits demo_nlp demo_nlp
           obama obama obama_doc obama_doc); reflexivity.
Defined.

Lemma only_the_text_of_a_body_counts_witness :
  handle example_limits main_routes (post_ner (text_body obama))
         (ready demo_nlp) =
  handle example_limits main_routes
    (post_ner (JDict [("lang", JStr "en"); ("text", JStr obama);
                      ("weights", JList [JFloat FNaN; JFloat (FFinite 3 (-1))])]))
    (ready demo_nlp).
Proof.
  apply (only_the_text_of_a_body_counts example_limits demo_nlp
           (text_body obama)
           (JDict [("lang", JStr "en"); ("text", JStr obama);
                   ("weights", JList [JFloat FNaN; JFloat (FFinite 3 (-1))])])
           obama); reflexivity.
Defined.
